(** * Fraud-detection form: feature derivation and inference pipeline

    A shallow embedding of [app.py], the single script of the
    repository.  The script is a Streamlit page: it loads two artifacts
    (a LightGBM classifier and a dictionary of label encoders), reads the
    form widgets, computes a geodesic distance, and, when the
    "Check for Fraud" button is pressed, encodes the categorical columns,
    buckets the card number with Python's built-in [hash], and displays
    the verdict of the classifier.

    Conventions of the embedding:
    - Python [float] values (amounts, coordinates, probabilities) are
      rationals [Q]; every finite double is one.  The infinities and
      nan, which the number inputs of the form do not return, have no
      counterpart, and the rounding of float arithmetic is not
      modelled.
    - Python [int] values are [Z].
    - A Python [str] whose code points are all below 256 is a [string]
      (one character per code point).
    - A Python exception is a value of [exn]; a computation that can
      raise and that writes to the page is a value of [M]. *)

From Stdlib Require Import ZArith QArith Qabs Lqa List String Ascii Lia.
From stdpp Require Import gmap strings.

Local Open Scope Z_scope.

(** ** CPython's hash of a [str]

    [hash(x)] at line 260 is the interpreter's string hash.  Since
    CPython 3.11 it is SipHash-1-3 keyed with the per-process secret
    [_Py_HashSecret] (Python/pyhash.c); the secret is drawn at
    interpreter start (Python/bootstrap_hash.c). *)
Module PyHash.

(** The two 64-bit keys [_Py_HashSecret.siphash.k0] and [.k1]. *)
Record secret := Secret { k0 : Z; k1 : Z }.

Definition u64 (x : Z) : Z := Z.land x (Z.ones 64).

Definition u32 (x : Z) : Z := Z.land x (Z.ones 32).

(** [ROTATE(x, b)] on [uint64_t]. *)
Definition ROTATE (x b : Z) : Z :=
  u64 (Z.lor (Z.shiftl x b) (Z.shiftr x (64 - b))).

Record sipstate := Sip { v0 : Z; v1 : Z; v2 : Z; v3 : Z }.

(** [HALF_ROUND(a,b,c,d,s,t)]: returns the new [(a,b,c,d)]. *)
Definition HALF_ROUND (a b c d s t : Z) : Z * Z * Z * Z :=
  let a := u64 (a + b) in
  let c := u64 (c + d) in
  let b := Z.lxor (ROTATE b s) a in
  let d := Z.lxor (ROTATE d t) c in
  let a := ROTATE a 32 in
  (a, b, c, d).

(** [SINGLE_ROUND(v0,v1,v2,v3)]. *)
Definition SINGLE_ROUND (v : sipstate) : sipstate :=
  let '(a0, a1, a2, a3) := HALF_ROUND (v0 v) (v1 v) (v2 v) (v3 v) 13 16 in
  let '(b2, b1, b0, b3) := HALF_ROUND a2 a1 a0 a3 17 21 in
  Sip b0 b1 b2 b3.

(** Little-endian value of a run of bytes. *)
Fixpoint le_bytes (bs : list Z) : Z :=
  match bs with
  | [] => 0
  | b :: rest => Z.lor b (Z.shiftl (le_bytes rest) 8)
  end.

(** The [while (src_sz >= 8)] loop: absorbs the full 8-byte words and
    returns the state together with the bytes left over. *)
Fixpoint absorb (v : sipstate) (src : list Z) : sipstate * list Z :=
  match src with
  | b0 :: b1 :: b2 :: b3 :: b4 :: b5 :: b6 :: b7 :: rest =>
      let mi := le_bytes [b0; b1; b2; b3; b4; b5; b6; b7] in
      let v := Sip (v0 v) (v1 v) (v2 v) (Z.lxor (v3 v) mi) in
      let v := SINGLE_ROUND v in
      let v := Sip (Z.lxor (v0 v) mi) (v1 v) (v2 v) (v3 v) in
      absorb v rest
  | tail => (v, tail)
  end.

Definition siphash13 (key0 key1 : Z) (src : list Z) : Z :=
  let b := u64 (Z.shiftl (Z.of_nat (List.length src)) 56) in
  let v := Sip (Z.lxor key0 0x736f6d6570736575)
               (Z.lxor key1 0x646f72616e646f6d)
               (Z.lxor key0 0x6c7967656e657261)
               (Z.lxor key1 0x7465646279746573) in
  let '(v, tail) := absorb v src in
  let b := Z.lor b (le_bytes tail) in
  let v := Sip (v0 v) (v1 v) (v2 v) (Z.lxor (v3 v) b) in
  let v := SINGLE_ROUND v in
  let v := Sip (Z.lxor (v0 v) b) (v1 v) (Z.lxor (v2 v) 0xff) (v3 v) in
  let v := SINGLE_ROUND v in
  let v := SINGLE_ROUND v in
  let v := SINGLE_ROUND v in
  Z.lxor (Z.lxor (v0 v) (v1 v)) (Z.lxor (v2 v) (v3 v)).

(** The cast of a [uint64_t] to [Py_hash_t]. *)
Definition to_Py_hash_t (x : Z) : Z :=
  if x <? 2 ^ 63 then x else x - 2 ^ 64.

Definition code_points (s : string) : list Z :=
  List.map (fun c => Z.of_N (N_of_ascii c)) (list_ascii_of_string s).

(** [_Py_HashBytes] on the one-byte-per-character buffer of the string:
    the empty string hashes to 0 and the value -1 is reserved. *)
Definition hash (k : secret) (x : string) : Z :=
  match code_points x with
  | [] => 0
  | src =>
      let h := to_Py_hash_t (siphash13 (k0 k) (k1 k) src) in
      if h =? -1 then -2 else h
  end.

(** [lcg_urandom]: the bytes the interpreter derives from a non-zero
    [PYTHONHASHSEED]. *)
Fixpoint lcg_urandom (x : Z) (size : nat) : list Z :=
  match size with
  | O => []
  | S size' =>
      let x := u32 (x * 214013) in
      let x := u32 (x + 2531011) in
      Z.land (Z.shiftr x 16) 0xff :: lcg_urandom x size'
  end.

(** How the process obtains its secret: [PYTHONHASHSEED=0] disables
    randomisation, another integer seeds [lcg_urandom], and when the
    variable is unset (or "random") the 24 bytes come from the
    operating system's random source, here the argument [urandom]. *)
Inductive hashseed := SeedUnset | SeedInt (n : Z).

Definition secret_of_bytes (buf : list Z) : secret :=
  Secret (le_bytes (firstn 8 buf)) (le_bytes (firstn 8 (skipn 8 buf))).

Definition init_secret (env : hashseed) (urandom : list Z) : secret :=
  match env with
  | SeedInt 0 => Secret 0 0
  | SeedInt n => secret_of_bytes (lcg_urandom n 24)
  | SeedUnset => secret_of_bytes (firstn 24 urandom)
  end.

End PyHash.

(** ** Exceptions, results and page output *)
Module Py.

(** The exception classes that the script can meet. [UnpicklingError]
    stands for whatever [joblib.load] raises on a file that exists but
    cannot be read back; it is not a [FileNotFoundError]. *)
Inductive exn :=
| FileNotFoundError
| UnpicklingError
| ValueError
| KeyError
| TypeError
| AttributeError.

Definition exn_eqb (a b : exn) : bool :=
  match a, b with
  | FileNotFoundError, FileNotFoundError
  | UnpicklingError, UnpicklingError
  | ValueError, ValueError
  | KeyError, KeyError
  | TypeError, TypeError
  | AttributeError, AttributeError => true
  | _, _ => false
  end.

Inductive result (A : Type) :=
| Ok (a : A)
| Raise (e : exn).
Arguments Ok {A} a.
Arguments Raise {A} e.

(** A value of a DataFrame cell. *)
Inductive cell :=
| Str (s : string)
| Int (z : Z)
| Float (q : Q).

(** What a run of the script does that can be observed: the elements
    it writes to the page and the calls it makes into the encoders and
    the classifier. *)
Inductive event :=
| StError (msg : string)
| MetricCards (distance : Q) (hour : Z) (amt : Q)
| PlotlyChart (lat long merch_lat merch_long : Q)
| Spinner
| NewDataFrame (row : list cell)
| Transform (col : string) (value : cell)
| HashApply (value : cell)
| Predict (features : list Q)
| PredictProba (features : list Q)
| FraudAlert (confidence : Q)
| LegitAlert (confidence : Q)
| Progress (percent : Z)
| WriteFraudProbability (fraud_prob : Q).

(** A computation: the events it emitted, then its value or the
    exception that ended it. *)
Definition M (A : Type) : Type := list event * result A.

Definition ret {A} (a : A) : M A := ([], Ok a).

Definition raise {A} (e : exn) : M A := ([], Raise e).

Definition emit (ev : event) : M unit := ([ev], Ok tt).

Definition bind {A B} (m : M A) (f : A -> M B) : M B :=
  match m with
  | (t, Ok a) => let '(t', r) := f a in (t ++ t', r)
  | (t, Raise e) => (t, Raise e)
  end.

(** [try: body except (classes): handler]. *)
Definition try_except {A} (body : M A) (classes : list exn) (handler : M A) : M A :=
  match body with
  | (t, Ok a) => (t, Ok a)
  | (t, Raise e) =>
      if existsb (exn_eqb e) classes
      then let '(t', r) := handler in (t ++ t', r)
      else (t, Raise e)
  end.

Definition trace {A} (m : M A) : list event := fst m.

Definition outcome {A} (m : M A) : result A := snd m.

(** Truth value of a [str]: empty is false. *)
Definition truthy (s : string) : bool :=
  match s with
  | EmptyString => false
  | String _ _ => true
  end.

End Py.

Import Py.

Notation "'let*' x ':=' m 'in' k" := (Py.bind m (fun x => k))
  (at level 10, x name, m at level 100, k at level 200).
Notation "'run' m 'then' k" := (Py.bind m (fun _ => k))
  (at level 10, m at level 100, k at level 200).

(** ** geopy: validation of a coordinate pair

    [geodesic(p, q)] first turns both tuples into [Point]s
    (geopy/point.py, [_normalize_coordinates], geopy 2.x): a coordinate
    that is not finite raises [ValueError], a latitude outside
    [-90, 90] raises [ValueError], a longitude outside [-180, 180] is
    wrapped into that range. *)
Module Geopy.

(** [math.isfinite].  It is true of every value of the model: a
    rational is a finite float, so the first test of
    [_normalize_coordinates] can fail only on the infinities and nan,
    which lie outside [Q]. *)
Definition isfinite (x : Q) : bool := true.

Definition trunc (q : Q) : Z := Z.quot (Qnum q) (Z.pos (Qden q)).

(** C's [fmod]: the remainder has the sign of [x]. *)
Definition fmod (x m : Q) : Q := (x - m * inject_Z (trunc (x / m)))%Q.

Definition Qltb (a b : Q) : bool := negb (Qle_bool b a).

Definition _normalize_angle (x limit : Q) : Q :=
  let double_limit := (limit * 2)%Q in
  let modulo := fmod x double_limit in
  if Qltb modulo (- limit)%Q then (modulo + double_limit)%Q
  else if Qle_bool limit modulo then (modulo - double_limit)%Q
  else modulo.

Definition _normalize_coordinates (latitude longitude : Q) : result (Q * Q) :=
  if negb (isfinite latitude && isfinite longitude) then Raise ValueError
  else if Qltb 90 (Qabs latitude) then Raise ValueError
  else if Qltb 180 (Qabs longitude)
       then Ok (latitude, _normalize_angle longitude 180)
       else Ok (latitude, longitude).

End Geopy.

(** ** scikit-learn: a fitted [LabelEncoder]

    [classes_] holds the distinct labels seen by [fit], sorted.  It is
    a numpy array: of dtype [object] when the encoder was fitted on an
    object column of a DataFrame, of a fixed-width string dtype when it
    was fitted on a list or array of [str]; the width is then the
    length of the longest class.  [transform] first casts its input to
    the dtype of [classes_] ([column_or_1d(y, dtype=self.classes_.dtype)]),
    which cuts a longer string down to that width, then maps the label
    to its position and raises [ValueError] ("y contains previously
    unseen labels") when it is not among the classes. *)
Module Sklearn.

Inductive dtype :=
| object_
| str_.

Record LabelEncoder := { classes_ : list string; classes_dtype : dtype }.

(** The number of characters of an element of a fixed-width string
    array holding [classes]: the longest of them, and at least one. *)
Definition itemsize (classes : list string) : nat :=
  Nat.max 1 (fold_right (fun c n => Nat.max (String.length c) n) O classes).

(** The cast of one label to the dtype of [classes_]. *)
Definition astype (le : LabelEncoder) (s : string) : string :=
  match classes_dtype le with
  | object_ => s
  | str_ => substring 0 (itemsize (classes_ le)) s
  end.

Fixpoint index_of (y : string) (classes : list string) : option Z :=
  match classes with
  | [] => None
  | c :: rest =>
      if String.eqb c y then Some 0
      else match index_of y rest with
           | Some i => Some (i + 1)
           | None => None
           end
  end.

Definition transform (le : LabelEncoder) (y : cell) : result Z :=
  match y with
  | Str s =>
      match index_of (astype le s) (classes_ le) with
      | Some i => Ok i
      | None => Raise ValueError
      end
  | _ => Raise ValueError
  end.

End Sklearn.

(** ** LightGBM: the scikit-learn wrapper [LGBMClassifier]

    For a binary model the booster returns the probability [r] of class
    1; [predict_proba] is the row [(1 - r, r)] and [predict] is the
    class at [argmax] of that row (the first index on a tie).  A frame
    that still holds an object column is refused with [ValueError]. *)
Module LightGBM.

Record LGBMClassifier := { booster_predict : list Q -> Q }.

Definition predict_proba (m : LGBMClassifier) (x : list Q) : Q * Q :=
  let r := booster_predict m x in
  ((1 - r)%Q, r).

Definition argmax (row : Q * Q) : Z :=
  if Geopy.Qltb (fst row) (snd row) then 1 else 0.

Definition predict (m : LGBMClassifier) (x : list Q) : Z :=
  argmax (predict_proba m x).

End LightGBM.

(** ** The script [app.py] *)
Module App.

Import Sklearn LightGBM.

(** *** Artifacts on disk and [joblib.load] *)

Inductive file (A : Type) :=
| Missing
| Unreadable
| Stored (a : A).
Arguments Missing {A}.
Arguments Unreadable {A}.
Arguments Stored {A} a.

(** The two paths the script opens. *)
Record filesystem := {
  fraud_detection_model_jb : file LGBMClassifier;
  label_encoder_jb : file (gmap string LabelEncoder)
}.

Definition joblib_load {A} (f : file A) : M A :=
  match f with
  | Missing => raise FileNotFoundError
  | Unreadable => raise UnpicklingError
  | Stored a => ret a
  end.

Definition files_not_found : string :=
  "Model files not found. Please ensure 'fraud_detection_model.jb' and 'label_encoder.jb' are in the correct directory.".

(** The globals [model] and [encoder]; [None] is Python's [None]. *)
Definition artifacts : Type :=
  option LGBMClassifier * option (gmap string LabelEncoder).

(** Lines 109-116, the body of [load_model]. *)
Definition load_model_body (fs : filesystem) : M artifacts :=
  try_except
    (let* model := joblib_load (fraud_detection_model_jb fs) in
     let* encoder := joblib_load (label_encoder_jb fs) in
     ret (Some model, Some encoder))
    [FileNotFoundError]
    (run emit (StError files_not_found) then
     ret (None, None)).

(** The process: the interpreter's hash secret and the entry that
    [@st.cache_resource] keeps for [load_model] (the returned value and
    the page elements the call wrote, which the cache replays). *)
Record process := {
  hash_secret : PyHash.secret;
  cache_resource : option (list event * artifacts)
}.

(** Line 108 and line 118: [load_model()] through [@st.cache_resource].
    A call that returns is cached; a call that raises is not. *)
Definition load_model (fs : filesystem) (p : process) : process * M artifacts :=
  match cache_resource p with
  | Some (replayed, value) => (p, (replayed, Ok value))
  | None =>
      match load_model_body fs with
      | (t, Ok value) =>
          ({| hash_secret := hash_secret p; cache_resource := Some (t, value) |},
           (t, Ok value))
      | (t, Raise e) => (p, (t, Raise e))
      end
  end.

(** *** The form *)

(** The values of the widgets of lines 172-202 and of the button of
    line 244 in one run of the script. *)
Record inputs := {
  merchant : string;
  category : string;
  amt : Q;
  lat : Q;
  long : Q;
  merch_lat : Q;
  merch_long : Q;
  hour : Z;
  day : Z;
  month : Z;
  gender : string;
  cc_num : string;
  button : bool
}.

(** What the widgets can return: [amt] has [min_value=0.0], the three
    sliders have their ranges, the select box its two options; the
    text inputs and the four coordinate inputs are unconstrained. *)
Definition accepted_by_widgets (i : inputs) : bool :=
  Qle_bool 0 (amt i)
  && (0 <=? hour i) && (hour i <=? 23)
  && (1 <=? day i) && (day i <=? 31)
  && (1 <=? month i) && (month i <=? 12)
  && (String.eqb (gender i) "Male" || String.eqb (gender i) "Female").

(** *** A one-row DataFrame: the columns in order, with their cells *)

Definition frame : Type := list (string * cell).

Definition DataFrame (row : list cell) (columns : list string) : frame :=
  combine columns row.

Fixpoint getitem (df : frame) (col : string) : result cell :=
  match df with
  | [] => Raise KeyError
  | (c, v) :: rest => if String.eqb c col then Ok v else getitem rest col
  end.

(** [df[col] = v]: an existing column keeps its place, a new one is
    appended. *)
Fixpoint setitem (df : frame) (col : string) (v : cell) : frame :=
  match df with
  | [] => [(col, v)]
  | (c, old) :: rest =>
      if String.eqb c col then (c, v) :: rest
      else (c, old) :: setitem rest col v
  end.

Definition lift {A} (r : result A) : M A := ([], r).

(** [encoder[col]] on the global [encoder]. *)
Definition encoder_getitem (encoder : option (gmap string LabelEncoder))
    (col : string) : M LabelEncoder :=
  match encoder with
  | None => raise TypeError
  | Some d =>
      match d !! col with
      | Some le => ret le
      | None => raise KeyError
      end
  end.

Definition categorical_col : list string := ["merchant"; "category"; "gender"]%string.

(** Lines 254-257, the body of the loop for one column. *)
Definition encode_column (encoder : option (gmap string LabelEncoder))
    (input_data : frame) (col : string) : M frame :=
  try_except
    (let* le := encoder_getitem encoder col in
     let* value := lift (getitem input_data col) in
     run emit (Transform col value) then
     let* code := lift (transform le value) in
     ret (setitem input_data col (Int code)))
    [ValueError; KeyError]
    (ret (setitem input_data col (Int (-1)))).

(** Lines 253-257. *)
Fixpoint encode_columns (encoder : option (gmap string LabelEncoder))
    (input_data : frame) (cols : list string) : M frame :=
  match cols with
  | [] => ret input_data
  | col :: rest =>
      let* input_data := encode_column encoder input_data col in
      encode_columns encoder input_data rest
  end.

(** The lambda of line 260, [hash(x) % (10 ** 2)]. *)
Definition bucket (k : PyHash.secret) (x : string) : Z :=
  PyHash.hash k x mod 10 ^ 2.

(** Line 260. *)
Definition hash_cc_num (k : PyHash.secret) (input_data : frame) : M frame :=
  let* value := lift (getitem input_data "cc_num") in
  run emit (HashApply value) then
  match value with
  | Str x => ret (setitem input_data "cc_num" (Int (bucket k x)))
  | _ => raise TypeError
  end.

(** The numeric row the classifier receives; an object column is
    refused. *)
Fixpoint features (df : frame) : result (list Q) :=
  match df with
  | [] => Ok []
  | (_, Str _) :: _ => Raise ValueError
  | (_, Int z) :: rest =>
      match features rest with
      | Ok xs => Ok (inject_Z z :: xs)
      | Raise e => Raise e
      end
  | (_, Float q) :: rest =>
      match features rest with
      | Ok xs => Ok (q :: xs)
      | Raise e => Raise e
      end
  end.

(** [model.predict(input_data)[0]] on the global [model]. *)
Definition model_predict (model : option LGBMClassifier) (input_data : frame) : M Z :=
  match model with
  | None => raise AttributeError
  | Some m =>
      let* x := lift (features input_data) in
      run emit (Predict x) then
      ret (predict m x)
  end.

(** [model.predict_proba(input_data)[0]]. *)
Definition model_predict_proba (model : option LGBMClassifier) (input_data : frame)
    : M (Q * Q) :=
  match model with
  | None => raise AttributeError
  | Some m =>
      let* x := lift (features input_data) in
      run emit (PredictProba x) then
      ret (predict_proba m x)
  end.

(** The probability shown after "Confidence:" (lines 268-283), before
    it is scaled to a percentage and formatted. *)
Definition confidence (prediction : Z) (prediction_proba : Q * Q) : Q :=
  if prediction =? 1 then snd prediction_proba else fst prediction_proba.

(** Lines 267-289. *)
Definition display_results (prediction : Z) (prediction_proba : Q * Q) : M unit :=
  run (if prediction =? 1
       then emit (FraudAlert (snd prediction_proba * 100))
       else emit (LegitAlert (fst prediction_proba * 100))) then
  let fraud_prob := (snd prediction_proba * 100)%Q in
  run emit (Progress (Geopy.trunc fraud_prob)) then
  emit (WriteFraudProbability fraud_prob).

(** The text of line 292; the pictogram that precedes it on the page is
    left out. *)
Definition fill_required : string := "Please fill all required fields".

(** What a scored submission computed. *)
Record scored := {
  feature_vector : frame;
  label : Z;
  probabilities : Q * Q
}.

Definition columns : list string :=
  ["merchant"; "category"; "amt"; "distance"; "hour"; "day"; "month";
   "gender"; "cc_num"]%string.

(** Lines 245-292: the body of [if st.button(...)]. *)
Definition fraud_check (model : option LGBMClassifier)
    (encoder : option (gmap string LabelEncoder)) (k : PyHash.secret)
    (i : inputs) (distance : Q) : M (option scored) :=
  if truthy (merchant i) && truthy (category i) && truthy (cc_num i) then
    run emit Spinner then
    let row := [Str (merchant i); Str (category i); Float (amt i);
                Float distance; Int (hour i); Int (day i); Int (month i);
                Str (gender i); Str (cc_num i)] in
    run emit (NewDataFrame row) then
    let input_data := DataFrame row columns in
    let* input_data := encode_columns encoder input_data categorical_col in
    let* input_data := hash_cc_num k input_data in
    let* prediction := model_predict model input_data in
    let* prediction_proba := model_predict_proba model input_data in
    run display_results prediction prediction_proba then
    ret (Some {| feature_vector := input_data;
                 label := prediction;
                 probabilities := prediction_proba |})
  else
    run emit (StError fill_required) then
    ret None.

Section Script.

(** The numeric kernel of [geodesic(...).km]: the inverse geodesic
    problem on the WGS-84 ellipsoid, solved in floating point by
    geographiclib for two validated points. *)
Variable inverse_km : Q * Q -> Q * Q -> Q.

(** Lines 120-121. *)
Definition haversine (lat1 lon1 lat2 lon2 : Q) : M Q :=
  let* a := lift (Geopy._normalize_coordinates lat1 lon1) in
  let* b := lift (Geopy._normalize_coordinates lat2 lon2) in
  ret (inverse_km a b).

(** One run of the script, top to bottom, in process [p].  The guard
    of line 209 holds in every run: the four number inputs return
    floats, never [None] or the empty string. *)
Definition script (fs : filesystem) (p : process) (i : inputs)
    : process * M (option scored) :=
  let '(p', loaded) := load_model fs p in
  (p',
   let* globals := loaded in
   let '(model, encoder) := globals in
   let* distance := haversine (lat i) (long i) (merch_lat i) (merch_long i) in
   run emit (MetricCards distance (hour i) (amt i)) then
   run emit (PlotlyChart (lat i) (long i) (merch_lat i) (merch_long i)) then
   if button i
   then fraud_check model encoder (hash_secret p') i distance
   else ret None).

End Script.

(** *** Sample submissions *)

(** The form with its default numbers and a typical merchant,
    category and card number, the button pressed. *)
Definition sample_form : inputs :=
  {| merchant := "shop_A"; category := "grocery"; amt := 100;
     lat := 40.7128; long := -74.0060;
     merch_lat := 40.7589; merch_long := -73.9851;
     hour := 12; day := 15; month := 6;
     gender := "Male"; cc_num := "4111111111111111";
     button := true |}.

(** The same with 91 typed into the latitude box. *)
Definition latitude_91_form : inputs :=
  {| merchant := "shop_A"; category := "grocery"; amt := 100;
     lat := 91; long := -74.0060;
     merch_lat := 40.7589; merch_long := -73.9851;
     hour := 12; day := 15; month := 6;
     gender := "Male"; cc_num := "4111111111111111";
     button := true |}.

(** The same with a single space in each of the three text boxes. *)
Definition blank_form : inputs :=
  {| merchant := " "; category := " "; amt := 100;
     lat := 40.7128; long := -74.0060;
     merch_lat := 40.7589; merch_long := -73.9851;
     hour := 12; day := 15; month := 6;
     gender := "Male"; cc_num := " ";
     button := true |}.

(** Both artifact files absent. *)
Definition no_artifacts : filesystem :=
  {| fraud_detection_model_jb := Missing; label_encoder_jb := Missing |}.

(** The model file present but not readable back. *)
Definition unreadable_model : filesystem :=
  {| fraud_detection_model_jb := Unreadable; label_encoder_jb := Stored ∅ |}.

(** A process that has not called [load_model] yet. *)
Definition fresh_process (k : PyHash.secret) : process :=
  {| hash_secret := k; cache_resource := None |}.

(** *** Reading a trace *)

(** The events that are calls into the encoders, the hash or the
    classifier, as opposed to elements written to the page. *)
Definition is_pipeline_call (ev : event) : bool :=
  match ev with
  | NewDataFrame _ | Transform _ _ | HashApply _ | Predict _ | PredictProba _ => true
  | _ => false
  end.

(** The code a column is expected to end up with when the encoder
    dictionary [d] is loaded: the position, in the column's encoder, of
    the label as cast to the dtype of the encoder's classes, and -1
    when the column has no encoder or the cast label is not among its
    classes. *)
Definition expected_code (d : gmap string LabelEncoder) (col v : string) : Z :=
  match d !! col with
  | Some le =>
      match index_of (astype le v) (classes_ le) with
      | Some i => i
      | None => -1
      end
  | None => -1
  end.

(** The cache entries a process can hold: none yet, or what a call of
    [load_model] that returned has left there. *)
Definition cache_from_load (p : process) : Prop :=
  match cache_resource p with
  | None => True
  | Some (t, value) => exists fs, load_model_body fs = (t, Ok value)
  end.

(** Both artifact files present. *)
Definition both_stored (m : LGBMClassifier) (d : gmap string LabelEncoder)
    : filesystem :=
  {| fraud_detection_model_jb := Stored m; label_encoder_jb := Stored d |}.

End App.

(** * Properties *)

Import Sklearn LightGBM App.

(** ** Helper lemmas *)

Lemma index_of_unseen (y : string) (classes : list string) :
  ~ In y classes -> index_of y classes = None.
Proof.
  induction classes as [|c rest IH]; intros Hnot; simpl.
  - reflexivity.
  - destruct (String.eqb c y) eqn:E.
    + apply String.eqb_eq in E. exfalso. apply Hnot. left. exact E.
    + rewrite IH; [reflexivity|]. intros Hin. apply Hnot. right. exact Hin.
Qed.

Lemma getitem_setitem (df : frame) (col : string) (v : cell) :
  getitem (setitem df col v) col = Ok v.
Proof.
  induction df as [|[c old] rest IH]; simpl.
  - rewrite String.eqb_refl. reflexivity.
  - destruct (String.eqb c col) eqn:E; simpl; rewrite E.
    + reflexivity.
    + exact IH.
Qed.

Lemma getitem_setitem_other (df : frame) (col col' : string) (v : cell) :
  col <> col' -> getitem (setitem df col v) col' = getitem df col'.
Proof.
  intros Hne. induction df as [|[c old] rest IH]; simpl.
  - destruct (String.eqb col col') eqn:E; [|reflexivity].
    apply String.eqb_eq in E. contradiction.
  - destruct (String.eqb c col) eqn:E; simpl.
    + apply String.eqb_eq in E. subst c.
      destruct (String.eqb col col') eqn:E'; [|reflexivity].
      apply String.eqb_eq in E'. contradiction.
    + destruct (String.eqb c col'); [reflexivity|exact IH].
Qed.

(** With the encoder dictionary loaded, one pass of the loop body never
    raises: the column ends up holding an integer code. *)
Lemma encode_column_loaded (d : gmap string LabelEncoder) (df : frame)
    (col v : string) :
  getitem df col = Ok (Str v) ->
  exists t code, encode_column (Some d) df col = (t, Ok (setitem df col (Int code))).
Proof.
  intros Hget. unfold encode_column, encoder_getitem.
  destruct (d !! col) as [le|] eqn:Hd; simpl.
  - rewrite Hget. cbn -[astype].
    destruct (index_of (astype le v) (classes_ le)) as [idx|]; cbn; eauto.
  - eauto.
Qed.

(** Writing the verdict to the page never raises. *)
Lemma display_results_returns (prediction : Z) (prediction_proba : Q * Q) :
  exists t, display_results prediction prediction_proba = (t, Ok tt).
Proof.
  unfold display_results. destruct (prediction =? 1); simpl; eauto.
Qed.

(** [load_model] never touches the interpreter's hash secret. *)
Lemma load_model_keeps_secret (fs : filesystem) (p : process) :
  hash_secret (fst (load_model fs p)) = hash_secret p.
Proof.
  unfold load_model.
  destruct (cache_resource p) as [[replayed value]|]; [reflexivity|].
  destruct (load_model_body fs) as [t [value|e]]; reflexivity.
Qed.

(** A second call of [load_model] in the same process returns what the
    first one returned and leaves the process as it is. *)
Lemma load_model_again (fs : filesystem) (p : process) :
  load_model fs (fst (load_model fs p)) = load_model fs p.
Proof.
  unfold load_model.
  destruct (cache_resource p) as [[replayed value]|] eqn:Hc; simpl.
  - rewrite Hc. reflexivity.
  - destruct (load_model_body fs) as [t [value|e]] eqn:Hb; simpl.
    + reflexivity.
    + rewrite Hc. reflexivity.
Qed.

Lemma script_process (inverse_km : Q * Q -> Q * Q -> Q) (fs : filesystem)
    (p : process) (i : inputs) :
  fst (script inverse_km fs p i) = fst (load_model fs p).
Proof.
  unfold script. destruct (load_model fs p) as [p' loaded]. reflexivity.
Qed.

(** ** Card bucketing *)

(** C3. For every card token, and whatever the process's hash secret,
    the bucket [hash(x) % (10 ** 2)] is an integer between 0 and 99. *)
Theorem bucket_range (k : PyHash.secret) (x : string) :
  0 <= bucket k x <= 99.
Proof.
  unfold bucket.
  assert (H : 0 <= PyHash.hash k x mod 10 ^ 2 < 10 ^ 2)
    by (apply Z.mod_pos_bound; reflexivity).
  change (10 ^ 2) with 100 in *. lia.
Qed.

(** ** Verdict *)

(** C6. For every row the classifier scores, provided the booster's
    output is a probability, the value shown after "Confidence:" is the
    entry of [predict_proba] for the predicted class (scaled to a
    percentage on the page), it lies between 0 and 1, and it is the
    larger of the two class probabilities. *)
Theorem confidence_is_mass_of_predicted_class (m : LGBMClassifier) (x : list Q) :
  (0 <= booster_predict m x <= 1)%Q ->
  let prediction := predict m x in
  let prediction_proba := predict_proba m x in
  let c := confidence prediction prediction_proba in
  hd_error (trace (display_results prediction prediction_proba))
    = Some ((if prediction =? 1 then FraudAlert else LegitAlert) (c * 100)%Q)
  /\ (prediction = 1 /\ c = snd prediction_proba
      \/ prediction = 0 /\ c = fst prediction_proba)
  /\ (0 <= c <= 1)%Q
  /\ (fst prediction_proba <= c)%Q
  /\ (snd prediction_proba <= c)%Q.
Proof.
  intros Hr. unfold predict, predict_proba, argmax, Geopy.Qltb. simpl.
  set (r := booster_predict m x) in *.
  destruct (Qle_bool r (1 - r)) eqn:E; simpl.
  - apply Qle_bool_iff in E.
    repeat split; try (right; split; reflexivity);
      unfold confidence; simpl; lra.
  - assert (Hlt : ~ (r <= 1 - r)%Q).
    { intros H. apply Qle_bool_iff in H. congruence. }
    repeat split; try (left; split; reflexivity);
      unfold confidence; simpl; lra.
Qed.

(** A booster that answers 1/4 on every row. *)
Lemma confidence_is_mass_of_predicted_class_witness :
  let m := {| booster_predict := fun _ => (1 # 4)%Q |} in
  let prediction := predict m [] in
  let prediction_proba := predict_proba m [] in
  let c := confidence prediction prediction_proba in
  hd_error (trace (display_results prediction prediction_proba))
    = Some ((if prediction =? 1 then FraudAlert else LegitAlert) (c * 100)%Q)
  /\ (prediction = 1 /\ c = snd prediction_proba
      \/ prediction = 0 /\ c = fst prediction_proba)
  /\ (0 <= c <= 1)%Q
  /\ (fst prediction_proba <= c)%Q
  /\ (snd prediction_proba <= c)%Q.
Proof.
  intros m.
  apply (confidence_is_mass_of_predicted_class m []).
  simpl. lra.
Defined.

(** ** Repeated submissions *)

(** C8. In one process, running the script a second time with the same
    widget values returns what the first run returned (the same feature
    vector, label and probabilities, or the same exception, after the
    same page output) and leaves the process in the same state. *)
Theorem resubmission_gives_same_result (inverse_km : Q * Q -> Q * Q -> Q)
    (fs : filesystem) (p : process) (i : inputs) :
  script inverse_km fs (fst (script inverse_km fs p i)) i
    = script inverse_km fs p i.
Proof.
  rewrite script_process. unfold script.
  rewrite load_model_again. reflexivity.
Qed.

(** ** Inputs the form lets through *)

(** C9. The latitude box accepts 91, and with that value the distance
    computation raises [ValueError] instead of returning a distance:
    whatever the artifacts and the process, the run of the script ends
    in an exception. *)
Theorem latitude_out_of_range_aborts (inverse_km : Q * Q -> Q * Q -> Q) :
  exists i : inputs,
    accepted_by_widgets i = true
    /\ (90 < Qabs (lat i))%Q
    /\ outcome (haversine inverse_km (lat i) (long i) (merch_lat i) (merch_long i))
       = Raise ValueError
    /\ forall (fs : filesystem) (p : process),
         outcome (snd (script inverse_km fs p i)) = Raise ValueError
         \/ outcome (snd (script inverse_km fs p i)) = Raise UnpicklingError.
Proof.
  exists latitude_91_form. repeat split.
  intros fs p. unfold script, load_model.
  destruct (cache_resource p) as [[replayed [model encoder]]|]; [left; reflexivity|].
  unfold load_model_body.
  destruct (fraud_detection_model_jb fs), (label_encoder_jb fs); simpl;
    (left; reflexivity) || (right; reflexivity).
Qed.

(** C10. A submission whose merchant, category and card number are a
    single space each passes the required-field test: with the artifacts
    loaded, the handler goes on to call the classifier. *)
Theorem blank_fields_reach_classifier :
  exists i : inputs,
    accepted_by_widgets i = true
    /\ merchant i = " "%string /\ category i = " "%string /\ cc_num i = " "%string
    /\ forall (m : LGBMClassifier) (d : gmap string LabelEncoder)
         (k : PyHash.secret) (distance : Q),
         exists x, In (Predict x) (trace (fraud_check (Some m) (Some d) k i distance))
                   /\ In (PredictProba x) (trace (fraud_check (Some m) (Some d) k i distance)).
Proof.
  exists blank_form. repeat split.
  intros m d k distance. unfold fraud_check, blank_form. cbn [truthy merchant category cc_num andb].
  cbn [encode_columns categorical_col DataFrame columns combine
       amt hour day month gender].
  set (df0 := [(_, Str " "%string); _; _; _; _; _; _; _; _]).
  destruct (encode_column_loaded d df0 "merchant" " " eq_refl) as (t1 & c1 & E1).
  set (df1 := setitem df0 "merchant" (Int c1)) in E1.
  destruct (encode_column_loaded d df1 "category" " " eq_refl) as (t2 & c2 & E2).
  set (df2 := setitem df1 "category" (Int c2)) in E2.
  destruct (encode_column_loaded d df2 "gender" "Male" eq_refl) as (t3 & c3 & E3).
  rewrite E1. cbv beta iota delta [bind].
  rewrite E2. cbv beta iota delta [bind].
  rewrite E3. subst df2 df1 df0. cbn -[bucket display_results].
  match goal with
  | |- context [display_results ?a ?b] =>
      destruct (display_results_returns a b) as (t4 & E4); rewrite E4
  end.
  cbn -[bucket].
  match goal with
  | |- context [Predict ?x] => exists x
  end.
  rewrite !in_app_iff. simpl. tauto.
Qed.

(** ** Failed artifact load *)

(** C4. What the script does when the artifacts cannot be loaded.  With
    both files absent, [load_model] writes its error and returns
    [(None, None)]; the button stays live, and a submission with all
    required fields filled ends in an uncaught [TypeError] at
    [encoder[col]], which [except (ValueError, KeyError)] does not
    cover.  With a model file that exists but cannot be read, the
    exception of [joblib.load] is not a [FileNotFoundError] and leaves
    [load_model] uncaught before anything is written to the page. *)
Theorem failed_load_then_submission_raises (inverse_km : Q * Q -> Q * Q -> Q)
    (k : PyHash.secret) :
  (In (StError files_not_found)
      (trace (snd (script inverse_km no_artifacts (fresh_process k) sample_form)))
   /\ outcome (snd (script inverse_km no_artifacts (fresh_process k) sample_form))
      = Raise TypeError)
  /\ snd (script inverse_km unreadable_model (fresh_process k) sample_form)
     = ([], Raise UnpicklingError).
Proof.
  split; [split|].
  - left. reflexivity.
  - reflexivity.
  - reflexivity.
Qed.

(** * Further properties of the script *)

(** ** Loading the artifacts *)

(** The three shapes of a result of the body of [load_model]. *)
Lemma load_model_body_cases (fs : filesystem) :
  (exists m d, load_model_body fs = ([], Ok (Some m, Some d)))
  \/ load_model_body fs = ([StError files_not_found], Ok (None, None))
  \/ load_model_body fs = ([], Raise UnpicklingError).
Proof.
  unfold load_model_body.
  destruct (fraud_detection_model_jb fs) as [| |m]; simpl; auto.
  destruct (label_encoder_jb fs) as [| |d]; simpl; eauto.
Qed.

(** X1. [load_model] is all or nothing.  It returns both artifacts and
    writes nothing when both files can be read; it returns
    [(None, None)] after one error message when the model file is
    absent, or the model file is read and the encoder file is absent;
    and it raises, with nothing written, when the model file cannot be
    read back, or the model file is read and the encoder file cannot.
    It never returns one artifact without the other. *)
Theorem load_model_all_or_nothing (fs : filesystem) :
  (exists m d,
      fraud_detection_model_jb fs = Stored m /\ label_encoder_jb fs = Stored d
      /\ load_model_body fs = ([], Ok (Some m, Some d)))
  \/ ((fraud_detection_model_jb fs = Missing
       \/ (exists m, fraud_detection_model_jb fs = Stored m)
          /\ label_encoder_jb fs = Missing)
      /\ load_model_body fs = ([StError files_not_found], Ok (None, None)))
  \/ ((fraud_detection_model_jb fs = Unreadable
       \/ (exists m, fraud_detection_model_jb fs = Stored m)
          /\ label_encoder_jb fs = Unreadable)
      /\ load_model_body fs = ([], Raise UnpicklingError)).
Proof.
  unfold load_model_body.
  destruct (fraud_detection_model_jb fs) as [| |m] eqn:Hm.
  - right. left. split; [left; reflexivity|reflexivity].
  - right. right. split; [left; reflexivity|reflexivity].
  - destruct (label_encoder_jb fs) as [| |d] eqn:Hd.
    + right. left. split; [right; eauto|reflexivity].
    + right. right. split; [right; eauto|reflexivity].
    + left. exists m, d. repeat split.
Qed.

(** X2. Once a call of [load_model] has returned in a process, every
    later call in that process returns the same artifacts and replays the
    same page output without reading the files: a [(None, None)] result
    stays even after the files have been put in place. *)
Theorem load_result_is_kept (fs fs' : filesystem) (p : process) (v : artifacts) :
  outcome (snd (load_model fs p)) = Ok v ->
  load_model fs' (fst (load_model fs p))
    = (fst (load_model fs p), snd (load_model fs p)).
Proof.
  unfold load_model.
  destruct (cache_resource p) as [[replayed value]|] eqn:Hc; simpl.
  - intros _. rewrite Hc. reflexivity.
  - destruct (load_model_body fs) as [t [value|e]]; simpl.
    + intros _. reflexivity.
    + intros H. discriminate H.
Qed.

(** The files are absent on the first run and present on the second:
    the second run still gets [(None, None)] and the error message. *)
Lemma load_result_is_kept_witness :
  let m := {| booster_predict := fun _ => (1 # 4)%Q |} in
  let p := fresh_process (PyHash.Secret 0 0) in
  load_model (both_stored m ∅) (fst (load_model no_artifacts p))
    = (fst (load_model no_artifacts p), snd (load_model no_artifacts p))
  /\ snd (load_model no_artifacts p) = ([StError files_not_found], Ok (None, None)).
Proof.
  intros m p. split.
  - apply (load_result_is_kept no_artifacts (both_stored m ∅) p (None, None)).
    reflexivity.
  - reflexivity.
Defined.

(** X3. A call of [load_model] that raised is not cached: the process
    is as it was before, and the next call reads the files again. *)
Theorem failed_read_is_retried (fs fs' : filesystem) (p : process) (e : exn) :
  outcome (snd (load_model fs p)) = Raise e ->
  fst (load_model fs p) = p
  /\ snd (load_model fs' (fst (load_model fs p))) = load_model_body fs'.
Proof.
  unfold load_model.
  destruct (cache_resource p) as [[replayed value]|] eqn:Hc; simpl.
  - intros H. discriminate H.
  - destruct (load_model_body fs) as [t [value|e']]; simpl.
    + intros H. discriminate H.
    + intros _. split; [reflexivity|]. rewrite Hc.
      destruct (load_model_body fs') as [t' [value'|e'']]; reflexivity.
Qed.

(** The model file cannot be read on the first run and both files are in
    place on the second: the second run loads them. *)
Lemma failed_read_is_retried_witness :
  let m := {| booster_predict := fun _ => (1 # 4)%Q |} in
  let p := fresh_process (PyHash.Secret 0 0) in
  (fst (load_model unreadable_model p) = p
   /\ snd (load_model (both_stored m ∅) (fst (load_model unreadable_model p)))
      = load_model_body (both_stored m ∅))
  /\ load_model_body (both_stored m ∅) = ([], Ok (Some m, Some ∅)).
Proof.
  intros m p. split.
  - apply (failed_read_is_retried unreadable_model (both_stored m ∅) p UnpicklingError).
    reflexivity.
  - reflexivity.
Defined.

(** X4. The cache entry of a process is always what some call of
    [load_model] returned: a run of the script keeps this, a fresh
    process has it, and it means that the two globals are either both
    loaded or both [None]. *)
Theorem cache_holds_a_load_result (inverse_km : Q * Q -> Q * Q -> Q)
    (fs : filesystem) (p : process) (i : inputs) :
  cache_from_load p ->
  cache_from_load (fst (script inverse_km fs p i))
  /\ forall t model encoder,
       cache_resource (fst (script inverse_km fs p i)) = Some (t, (model, encoder)) ->
       (exists m d, model = Some m /\ encoder = Some d /\ t = [])
       \/ (model = None /\ encoder = None /\ t = [StError files_not_found]).
Proof.
  intros Hp. rewrite script_process.
  assert (Hinv : cache_from_load (fst (load_model fs p))).
  { unfold load_model, cache_from_load in *.
    destruct (cache_resource p) as [[replayed value]|] eqn:Hc; simpl.
    - rewrite Hc. exact Hp.
    - destruct (load_model_body fs) as [t [value|e]] eqn:Hb; simpl.
      + exists fs. exact Hb.
      + rewrite Hc. exact I. }
  split; [exact Hinv|].
  intros t model encoder Hcache. unfold cache_from_load in Hinv.
  rewrite Hcache in Hinv. destruct Hinv as [fs0 Hb].
  destruct (load_model_body_cases fs0) as [(m & d & H) | [H | H]];
    rewrite H in Hb; inversion Hb; subst; eauto 10.
Qed.

(** A fresh process, with both files absent. *)
Lemma cache_holds_a_load_result_witness :
  let p := fresh_process (PyHash.Secret 0 0) in
  let q := fst (script (fun _ _ => 0%Q) no_artifacts p sample_form) in
  cache_from_load q
  /\ forall t model encoder,
       cache_resource q = Some (t, (model, encoder)) ->
       (exists m d, model = Some m /\ encoder = Some d /\ t = [])
       \/ (model = None /\ encoder = None /\ t = [StError files_not_found]).
Proof.
  intros p q.
  apply (cache_holds_a_load_result (fun _ _ => 0%Q) no_artifacts p sample_form).
  exact I.
Defined.

(** In a process whose cache entry is filled, a run of the script
    does not depend on the files at all and leaves the process as it
    is. *)
Theorem cached_run_ignores_files (inverse_km : Q * Q -> Q * Q -> Q)
    (fs fs' : filesystem) (p : process) (i : inputs)
    (c : list event * artifacts) :
  cache_resource p = Some c ->
  script inverse_km fs p i = script inverse_km fs' p i
  /\ fst (script inverse_km fs p i) = p.
Proof.
  intros Hc. unfold script, load_model. rewrite Hc.
  destruct c as [replayed value]. split; reflexivity.
Qed.

(** A process that holds both artifacts, run once with the files absent
    and once with an unreadable model file. *)
Lemma cached_run_ignores_files_witness :
  let m := {| booster_predict := fun _ => (1 # 4)%Q |} in
  let p := {| hash_secret := PyHash.Secret 0 0;
              cache_resource := Some ([], (Some m, Some ∅)) |} in
  script (fun _ _ => 0%Q) no_artifacts p sample_form
    = script (fun _ _ => 0%Q) unreadable_model p sample_form
  /\ fst (script (fun _ _ => 0%Q) no_artifacts p sample_form) = p.
Proof.
  intros m p.
  apply (cached_run_ignores_files (fun _ _ => 0%Q) no_artifacts unreadable_model
           p sample_form ([], (Some m, Some ∅))).
  reflexivity.
Defined.

(** ** The handler with the artifacts loaded *)

(** With the dictionary loaded, the loop body is the pure assignment of
    [expected_code]; [transform] is called only when the column has an
    encoder. *)
Lemma encode_column_exact (d : gmap string LabelEncoder) (df : frame)
    (col v : string) :
  getitem df col = Ok (Str v) ->
  encode_column (Some d) df col
    = (match d !! col with
       | Some _ => [Transform col (Str v)]
       | None => []
       end,
       Ok (setitem df col (Int (expected_code d col v)))).
Proof.
  intros Hget. unfold encode_column, encoder_getitem, expected_code.
  destruct (d !! col) as [le|]; simpl.
  - rewrite Hget. cbn -[astype].
    destruct (index_of (astype le v) (classes_ le)) as [idx|]; reflexivity.
  - reflexivity.
Qed.

Lemma truthy_nonempty (s : string) : s <> ""%string -> truthy s = true.
Proof.
  destruct s; [intros H; contradiction H; reflexivity | reflexivity].
Qed.

Lemma display_results_no_calls (prediction : Z) (prediction_proba : Q * Q) :
  List.filter is_pipeline_call (trace (display_results prediction prediction_proba)) = [].
Proof.
  unfold display_results. destruct (prediction =? 1); reflexivity.
Qed.

(** The handler, evaluated symbolically for a loaded model and encoder
    and three non-empty text fields. *)
Lemma fraud_check_loaded (m : LGBMClassifier) (d : gmap string LabelEncoder)
    (k : PyHash.secret) (i : inputs) (distance : Q) :
  merchant i <> ""%string -> category i <> ""%string -> cc_num i <> ""%string ->
  let x := [inject_Z (expected_code d "merchant" (merchant i));
            inject_Z (expected_code d "category" (category i));
            amt i; distance;
            inject_Z (hour i); inject_Z (day i); inject_Z (month i);
            inject_Z (expected_code d "gender" (gender i));
            inject_Z (bucket k (cc_num i))] in
  fraud_check (Some m) (Some d) k i distance
  = ([Spinner;
      NewDataFrame [Str (merchant i); Str (category i); Float (amt i);
                    Float distance; Int (hour i); Int (day i); Int (month i);
                    Str (gender i); Str (cc_num i)]]
     ++ match d !! "merchant"%string with
        | Some _ => [Transform "merchant" (Str (merchant i))]
        | None => []
        end
     ++ match d !! "category"%string with
        | Some _ => [Transform "category" (Str (category i))]
        | None => []
        end
     ++ match d !! "gender"%string with
        | Some _ => [Transform "gender" (Str (gender i))]
        | None => []
        end
     ++ [HashApply (Str (cc_num i)); Predict x; PredictProba x]
     ++ trace (display_results (predict m x) (predict_proba m x)),
     Ok (Some {| feature_vector :=
                   [("merchant", Int (expected_code d "merchant" (merchant i)));
                    ("category", Int (expected_code d "category" (category i)));
                    ("amt", Float (amt i));
                    ("distance", Float distance);
                    ("hour", Int (hour i));
                    ("day", Int (day i));
                    ("month", Int (month i));
                    ("gender", Int (expected_code d "gender" (gender i)));
                    ("cc_num", Int (bucket k (cc_num i)))]%string;
                 label := predict m x;
                 probabilities := predict_proba m x |})).
Proof.
  intros Hm Hc Hcc x. unfold fraud_check.
  rewrite (truthy_nonempty _ Hm), (truthy_nonempty _ Hc), (truthy_nonempty _ Hcc).
  cbn [andb encode_columns categorical_col DataFrame columns combine].
  set (df0 := [(_, Str (merchant i)); _; _; _; _; _; _; _; _]).
  rewrite (encode_column_exact d df0 "merchant" (merchant i) eq_refl).
  set (df1 := setitem df0 _ _).
  cbv beta iota delta [bind].
  rewrite (encode_column_exact d df1 "category" (category i) eq_refl).
  set (df2 := setitem df1 _ _).
  rewrite (encode_column_exact d df2 "gender" (gender i) eq_refl).
  subst df2 df1 df0.
  destruct (display_results_returns (predict m x) (predict_proba m x)) as (t & Et).
  cbn -[bucket display_results expected_code predict predict_proba].
  fold x. rewrite Et. cbn -[bucket expected_code predict predict_proba].
  rewrite !app_nil_r. rewrite <- !app_assoc. reflexivity.
Qed.

(** X5. With both artifacts loaded and the three text fields non-empty,
    the handler never raises.  The feature vector it scores keeps the
    nine columns in the order of the DataFrame; amount, distance, hour,
    day and month are the widget values unchanged; each categorical
    column holds the position of its label in the column's encoder, or
    -1; the card column holds the bucket of the card number, not the
    number; and the label and probabilities returned are the
    classifier's answers on that row. *)
Theorem loaded_submission_is_scored (m : LGBMClassifier)
    (d : gmap string LabelEncoder) (k : PyHash.secret) (i : inputs)
    (distance : Q) :
  merchant i <> ""%string -> category i <> ""%string -> cc_num i <> ""%string ->
  let x := [inject_Z (expected_code d "merchant" (merchant i));
            inject_Z (expected_code d "category" (category i));
            amt i; distance;
            inject_Z (hour i); inject_Z (day i); inject_Z (month i);
            inject_Z (expected_code d "gender" (gender i));
            inject_Z (bucket k (cc_num i))] in
  outcome (fraud_check (Some m) (Some d) k i distance)
  = Ok (Some {| feature_vector :=
                  [("merchant", Int (expected_code d "merchant" (merchant i)));
                   ("category", Int (expected_code d "category" (category i)));
                   ("amt", Float (amt i));
                   ("distance", Float distance);
                   ("hour", Int (hour i));
                   ("day", Int (day i));
                   ("month", Int (month i));
                   ("gender", Int (expected_code d "gender" (gender i)));
                   ("cc_num", Int (bucket k (cc_num i)))]%string;
                label := predict m x;
                probabilities := predict_proba m x |}).
Proof.
  intros Hm Hc Hcc x.
  rewrite (fraud_check_loaded m d k i distance Hm Hc Hcc). reflexivity.
Qed.

(** The sample submission, an encoder dictionary that knows two
    merchants and the two genders but has no entry for the category, and
    a booster that answers 1/4. *)
Lemma loaded_submission_is_scored_witness :
  let m := {| booster_predict := fun _ => (1 # 4)%Q |} in
  let d : gmap string LabelEncoder :=
    <[ "merchant"%string := {| classes_ := ["shop_A"; "shop_B"]%string; classes_dtype := object_ |} ]>
      {[ "gender"%string := {| classes_ := ["Female"; "Male"]%string; classes_dtype := object_ |} ]} in
  let k := PyHash.init_secret (PyHash.SeedInt 1) [] in
  outcome (fraud_check (Some m) (Some d) k sample_form 6.4)
  = Ok (Some {| feature_vector :=
                  [("merchant", Int 0); ("category", Int (-1));
                   ("amt", Float 100); ("distance", Float 6.4);
                   ("hour", Int 12); ("day", Int 15); ("month", Int 6);
                   ("gender", Int 1); ("cc_num", Int 42)]%string;
                label := 0;
                probabilities := ((1 - (1 # 4))%Q, (1 # 4)%Q) |}).
Proof.
  intros m d k.
  apply (loaded_submission_is_scored m d k sample_form 6.4);
    intros H; discriminate H.
Defined.

(** X6. With both artifacts loaded and the three text fields non-empty,
    the calls the handler makes are, in this order: the DataFrame is
    built from the raw values; [transform] is called for merchant,
    category and gender, each only if the dictionary has an encoder for
    it; the card number is hashed; [predict] and then [predict_proba]
    are called, once each and on the same row. *)
Theorem loaded_submission_call_order (m : LGBMClassifier)
    (d : gmap string LabelEncoder) (k : PyHash.secret) (i : inputs)
    (distance : Q) :
  merchant i <> ""%string -> category i <> ""%string -> cc_num i <> ""%string ->
  let x := [inject_Z (expected_code d "merchant" (merchant i));
            inject_Z (expected_code d "category" (category i));
            amt i; distance;
            inject_Z (hour i); inject_Z (day i); inject_Z (month i);
            inject_Z (expected_code d "gender" (gender i));
            inject_Z (bucket k (cc_num i))] in
  List.filter is_pipeline_call (trace (fraud_check (Some m) (Some d) k i distance))
  = [NewDataFrame [Str (merchant i); Str (category i); Float (amt i);
                   Float distance; Int (hour i); Int (day i); Int (month i);
                   Str (gender i); Str (cc_num i)]]
    ++ match d !! "merchant"%string with
       | Some _ => [Transform "merchant" (Str (merchant i))]
       | None => []
       end
    ++ match d !! "category"%string with
       | Some _ => [Transform "category" (Str (category i))]
       | None => []
       end
    ++ match d !! "gender"%string with
       | Some _ => [Transform "gender" (Str (gender i))]
       | None => []
       end
    ++ [HashApply (Str (cc_num i)); Predict x; PredictProba x].
Proof.
  intros Hm Hc Hcc x.
  rewrite (fraud_check_loaded m d k i distance Hm Hc Hcc). fold x.
  unfold trace. cbn [fst].
  pose proof (display_results_no_calls (predict m x) (predict_proba m x)) as Hd.
  unfold trace in Hd. rewrite !List.filter_app, Hd.
  destruct (d !! "merchant"%string), (d !! "category"%string),
    (d !! "gender"%string); reflexivity.
Qed.

(** The same submission and artifacts as above: the category column has
    no encoder, so [transform] is called for merchant and gender only. *)
Lemma loaded_submission_call_order_witness :
  let m := {| booster_predict := fun _ => (1 # 4)%Q |} in
  let d : gmap string LabelEncoder :=
    <[ "merchant"%string := {| classes_ := ["shop_A"; "shop_B"]%string; classes_dtype := object_ |} ]>
      {[ "gender"%string := {| classes_ := ["Female"; "Male"]%string; classes_dtype := object_ |} ]} in
  let k := PyHash.init_secret (PyHash.SeedInt 1) [] in
  let x := [0; -1; 100; 6.4; 12; 15; 6; 1; 42]%Q in
  List.filter is_pipeline_call (trace (fraud_check (Some m) (Some d) k sample_form 6.4))
  = [NewDataFrame [Str "shop_A"; Str "grocery"; Float 100; Float 6.4;
                   Int 12; Int 15; Int 6; Str "Male"; Str "4111111111111111"];
     Transform "merchant" (Str "shop_A");
     Transform "gender" (Str "Male");
     HashApply (Str "4111111111111111"); Predict x; PredictProba x].
Proof.
  intros m d k x.
  apply (loaded_submission_call_order m d k sample_form 6.4);
    intros H; discriminate H.
Defined.

(** ** Codes of known labels *)

Lemma index_of_seen (y : string) (classes : list string) :
  In y classes ->
  exists i, index_of y classes = Some i
            /\ 0 <= i < Z.of_nat (List.length classes)
            /\ nth_error classes (Z.to_nat i) = Some y.
Proof.
  induction classes as [|c rest IH]; intros Hin.
  - destruct Hin.
  - simpl index_of. destruct (String.eqb c y) eqn:E.
    + apply String.eqb_eq in E. subst c. exists 0.
      repeat split; simpl List.length; try lia. 
    + destruct Hin as [Heq | Hin].
      * subst c. rewrite String.eqb_refl in E. discriminate E.
      * destruct (IH Hin) as (j & Hj & Hrange & Hnth). rewrite Hj.
        exists (j + 1). repeat split; simpl List.length; try lia.
        replace (Z.to_nat (j + 1)) with (S (Z.to_nat j)) by lia.
        exact Hnth.
Qed.

(** A string no longer than the width is left whole by the cut. *)
Lemma substring_whole (s : string) (n : nat) :
  (String.length s <= n)%nat -> substring 0 n s = s.
Proof.
  revert n. induction s as [|c s IH]; intros n Hlen.
  - destruct n; reflexivity.
  - destruct n as [|n]; simpl in *; [lia|].
    rewrite IH by lia. reflexivity.
Qed.

Lemma class_fits_itemsize (v : string) (classes : list string) :
  In v classes -> (String.length v <= itemsize classes)%nat.
Proof.
  unfold itemsize. induction classes as [|c rest IH]; intros Hin.
  - destruct Hin.
  - simpl fold_right. destruct Hin as [Heq | Hin].
    + subst c. lia.
    + specialize (IH Hin). lia.
Qed.

(** The cast to the dtype of [classes_] leaves every class as it is. *)
Lemma astype_seen (le : LabelEncoder) (v : string) :
  In v (classes_ le) -> astype le v = v.
Proof.
  intros Hin. unfold astype. destruct (classes_dtype le); [reflexivity|].
  apply substring_whole, class_fits_itemsize, Hin.
Qed.

(** X7. A label that the column's encoder has seen is replaced by a
    code between 0 and the number of classes minus one, and the class at
    that position is the label itself: a real code is never the sentinel
    -1 and can be turned back into the label. *)
Theorem encode_seen_label (d : gmap string LabelEncoder) (input_data : frame)
    (col v : string) (le : LabelEncoder) :
  getitem input_data col = Ok (Str v) ->
  d !! col = Some le ->
  In v (classes_ le) ->
  exists code,
    encode_column (Some d) input_data col
      = ([Transform col (Str v)], Ok (setitem input_data col (Int code)))
    /\ 0 <= code < Z.of_nat (List.length (classes_ le))
    /\ nth_error (classes_ le) (Z.to_nat code) = Some v.
Proof.
  intros Hget Hle Hin.
  destruct (index_of_seen v (classes_ le) Hin) as (code & Hidx & Hrange & Hnth).
  exists code. split; [|split; assumption].
  rewrite (encode_column_exact d input_data col v Hget).
  unfold expected_code. rewrite Hle, (astype_seen le v Hin), Hidx. reflexivity.
Qed.

(** The gender "Male" under an encoder fitted on Female and Male. *)
Lemma encode_seen_label_witness :
  let le := {| classes_ := ["Female"; "Male"]%string; classes_dtype := object_ |} in
  let d : gmap string LabelEncoder := {[ "gender"%string := le ]} in
  let df : frame := [("gender", Str "Male")]%string in
  exists code,
    encode_column (Some d) df "gender"
      = ([Transform "gender" (Str "Male")], Ok (setitem df "gender" (Int code)))
    /\ 0 <= code < Z.of_nat (List.length (classes_ le))
    /\ nth_error (classes_ le) (Z.to_nat code) = Some "Male"%string.
Proof.
  intros le d df.
  apply (encode_seen_label d df "gender" "Male" le).
  - reflexivity.
  - reflexivity.
  - simpl. right. left. reflexivity.
Defined.

(** ** The verdict on the page *)

(** X8. The page shows the fraud alert exactly when the booster's
    probability of fraud is above one half; at one half or below it
    shows the legitimate alert, with one minus that probability as the
    confidence. *)
Theorem fraud_alert_iff_above_half (m : LGBMClassifier) (x : list Q) :
  let r := booster_predict m x in
  (predict m x = 1 <-> (1 # 2 < r)%Q)
  /\ (predict m x = 0 <-> (r <= 1 # 2)%Q)
  /\ hd_error (trace (display_results (predict m x) (predict_proba m x)))
     = Some (if predict m x =? 1
             then FraudAlert (r * 100)%Q
             else LegitAlert ((1 - r) * 100)%Q).
Proof.
  intros r. unfold predict, predict_proba, argmax, Geopy.Qltb. simpl. fold r.
  destruct (Qle_bool r (1 - r)) eqn:E; simpl.
  - apply Qle_bool_iff in E. repeat split; intros H; try discriminate H; lra.
  - assert (Hlt : ~ (r <= 1 - r)%Q).
    { intros H. apply Qle_bool_iff in H. congruence. }
    repeat split; intros H; try discriminate H; lra.
Qed.

Lemma trunc_percent_range (r : Q) :
  (0 <= r <= 1)%Q -> 0 <= Geopy.trunc (r * 100) <= 100.
Proof.
  intros [H0 H1]. unfold Geopy.trunc.
  destruct r as [n den]. unfold Qle in *. simpl in *.
  assert (Hn : 0 <= n) by lia.
  assert (Hd : n <= Z.pos den) by lia.
  rewrite Pos.mul_1_r.
  rewrite Z.quot_div_nonneg by lia.
  split.
  - apply Z.div_pos; lia.
  - apply Z.div_le_upper_bound; lia.
Qed.

(** X9. When the booster's output is a probability, the value handed
    to the progress bar, [int(fraud_prob)], is an integer between 0 and
    100, and the three elements written are the alert, the progress bar
    and the fraud-probability line, in this order. *)
Theorem progress_value_in_range (m : LGBMClassifier) (x : list Q) :
  (0 <= booster_predict m x <= 1)%Q ->
  exists alert n,
    trace (display_results (predict m x) (predict_proba m x))
      = [alert; Progress n; WriteFraudProbability (booster_predict m x * 100)%Q]
    /\ 0 <= n <= 100.
Proof.
  intros Hr. unfold display_results, predict_proba. cbn [snd fst].
  destruct (predict m x =? 1); cbn;
    eexists; eexists; (split; [reflexivity | apply trunc_percent_range; exact Hr]).
Qed.

(** A booster that answers 999/1000: the bar is set to 99. *)
Lemma progress_value_in_range_witness :
  let m := {| booster_predict := fun _ => (999 # 1000)%Q |} in
  exists alert n,
    trace (display_results (predict m []) (predict_proba m []))
      = [alert; Progress n; WriteFraudProbability ((999 # 1000) * 100)%Q]
    /\ 0 <= n <= 100.
Proof.
  intros m.
  apply (progress_value_in_range m []).
  simpl. lra.
Defined.

(** ** The handler after a failed load *)

(** X10. With [model] and [encoder] both [None], no submission is ever
    scored: the handler either writes the validation error and returns,
    or builds the DataFrame and ends in [TypeError] at the first
    [encoder[col]]; no encoder method, no hash and no classifier method
    is called. *)
Theorem unloaded_submission_never_scores (k : PyHash.secret) (i : inputs)
    (distance : Q) :
  fraud_check None None k i distance = ([StError fill_required], Ok None)
  \/ fraud_check None None k i distance
     = ([Spinner;
         NewDataFrame [Str (merchant i); Str (category i); Float (amt i);
                       Float distance; Int (hour i); Int (day i); Int (month i);
                       Str (gender i); Str (cc_num i)]],
        Raise TypeError).
Proof.
  unfold fraud_check.
  destruct (truthy (merchant i) && truthy (category i) && truthy (cc_num i)).
  - right. reflexivity.
  - left. reflexivity.
Qed.

(** ** The distance and the run of the script *)

Lemma normalize_latitude_valid (latitude longitude : Q) :
  (Qabs latitude <= 90)%Q ->
  exists lon', Geopy._normalize_coordinates latitude longitude = Ok (latitude, lon').
Proof.
  intros H. unfold Geopy._normalize_coordinates, Geopy.Qltb.
  apply Qle_bool_iff in H. rewrite H. simpl.
  destruct (negb (Qle_bool (Qabs longitude) 180)); eauto.
Qed.

Lemma normalize_latitude_invalid (latitude longitude : Q) :
  ~ (Qabs latitude <= 90)%Q ->
  Geopy._normalize_coordinates latitude longitude = Raise ValueError.
Proof.
  intros H. unfold Geopy._normalize_coordinates, Geopy.Qltb.
  destruct (Qle_bool (Qabs latitude) 90) eqn:E.
  - apply Qle_bool_iff in E. contradiction.
  - reflexivity.
Qed.

Lemma normalize_in_range (latitude longitude : Q) :
  (Qabs latitude <= 90)%Q -> (Qabs longitude <= 180)%Q ->
  Geopy._normalize_coordinates latitude longitude = Ok (latitude, longitude).
Proof.
  intros Hlat Hlon. unfold Geopy._normalize_coordinates, Geopy.Qltb.
  apply Qle_bool_iff in Hlat, Hlon. rewrite Hlat, Hlon. reflexivity.
Qed.

(** X12. How a run composes.  When [load_model] returns and the four
    coordinates are in range, the page gets the output of [load_model],
    then the metric cards and the map for the geodesic distance of the
    two points as entered, then, if the button was pressed, the output
    of the handler for that distance and the process's hash secret; the
    result of the run is the handler's result, or nothing without the
    button. *)
Theorem run_with_valid_coordinates (inverse_km : Q * Q -> Q * Q -> Q)
    (fs : filesystem) (p : process) (i : inputs)
    (t : list event) (model : option LGBMClassifier)
    (encoder : option (gmap string LabelEncoder)) :
  snd (load_model fs p) = (t, Ok (model, encoder)) ->
  (Qabs (lat i) <= 90)%Q -> (Qabs (long i) <= 180)%Q ->
  (Qabs (merch_lat i) <= 90)%Q -> (Qabs (merch_long i) <= 180)%Q ->
  let distance := inverse_km (lat i, long i) (merch_lat i, merch_long i) in
  let handled := fraud_check model encoder (hash_secret p) i distance in
  snd (script inverse_km fs p i)
  = (t ++ [MetricCards distance (hour i) (amt i);
           PlotlyChart (lat i) (long i) (merch_lat i) (merch_long i)]
       ++ (if button i then trace handled else []),
     if button i then outcome handled else Ok None).
Proof.
  intros Hload Hlat Hlong Hmlat Hmlong distance handled.
  pose proof (load_model_keeps_secret fs p) as Hk.
  unfold script. destruct (load_model fs p) as [p' loaded].
  simpl in Hload, Hk. subst loaded. cbn [snd]. rewrite Hk.
  unfold haversine, lift.
  rewrite (normalize_in_range _ _ Hlat Hlong), (normalize_in_range _ _ Hmlat Hmlong).
  cbn -[fraud_check]. fold distance. fold handled.
  destruct (button i).
  - destruct handled as [th rh]. reflexivity.
  - reflexivity.
Qed.

(** The sample form in a fresh process with both files in place. *)
Lemma run_with_valid_coordinates_witness :
  let km : Q * Q -> Q * Q -> Q := fun _ _ => 6.4%Q in
  let m := {| booster_predict := fun _ => (1 # 4)%Q |} in
  let k := PyHash.Secret 0 0 in
  let handled := fraud_check (Some m) (Some ∅) k sample_form 6.4 in
  snd (script km (both_stored m ∅) (fresh_process k) sample_form)
  = ([] ++ [MetricCards 6.4 12 100; PlotlyChart 40.7128 (-74.0060) 40.7589 (-73.9851)]
        ++ trace handled,
     outcome handled).
Proof.
  intros km m k handled.
  apply (run_with_valid_coordinates km (both_stored m ∅) (fresh_process k)
           sample_form [] (Some m) (Some ∅)).
  - reflexivity.
  - vm_compute. intros H. discriminate H.
  - vm_compute. intros H. discriminate H.
  - vm_compute. intros H. discriminate H.
  - vm_compute. intros H. discriminate H.
Defined.

(** X13. A latitude outside [-90, 90], of the transaction or of the
    merchant, stops the run at the distance computation whatever else was
    entered: after the output of [load_model] nothing is written (no
    metric cards, no map, no validation message) and the run ends in
    [ValueError], button pressed or not. *)
Theorem run_with_invalid_latitude (inverse_km : Q * Q -> Q * Q -> Q)
    (fs : filesystem) (p : process) (i : inputs)
    (t : list event) (globals : artifacts) :
  snd (load_model fs p) = (t, Ok globals) ->
  (90 < Qabs (lat i))%Q \/ (90 < Qabs (merch_lat i))%Q ->
  snd (script inverse_km fs p i) = (t, Raise ValueError).
Proof.
  intros Hload Hbad.
  assert (Hh : haversine inverse_km (lat i) (long i) (merch_lat i) (merch_long i)
               = ([], Raise ValueError)).
  { unfold haversine, lift.
    destruct (Qle_bool (Qabs (lat i)) 90) eqn:E1.
    - apply Qle_bool_iff in E1.
      destruct (normalize_latitude_valid (lat i) (long i) E1) as (l1 & H1).
      rewrite H1. rewrite normalize_latitude_invalid; [reflexivity|].
      destruct Hbad as [H | H]; lra.
    - rewrite normalize_latitude_invalid; [reflexivity|].
      intros H. apply Qle_bool_iff in H. congruence. }
  unfold script. destruct (load_model fs p) as [p' loaded].
  simpl in Hload. subst loaded. cbn [snd]. destruct globals as [model encoder].
  unfold bind at 1. rewrite Hh. cbn. rewrite app_nil_r. reflexivity.
Qed.

(** A merchant latitude of -120 with the merchant name left empty and
    the button pressed: no validation message, the run raises. *)
Lemma run_with_invalid_latitude_witness :
  let i := {| merchant := ""; category := "grocery"; amt := 100;
              lat := 40.7128; long := -74.0060;
              merch_lat := -120; merch_long := -73.9851;
              hour := 12; day := 15; month := 6;
              gender := "Male"; cc_num := "4111111111111111";
              button := true |} in
  snd (script (fun _ _ => 0%Q) no_artifacts (fresh_process (PyHash.Secret 0 0)) i)
  = ([StError files_not_found], Raise ValueError).
Proof.
  intros i.
  apply (run_with_invalid_latitude (fun _ _ => 0%Q) no_artifacts
           (fresh_process (PyHash.Secret 0 0)) i
           [StError files_not_found] (None, None)).
  - reflexivity.
  - right. vm_compute. reflexivity.
Defined.

Lemma haversine_writes_nothing (inverse_km : Q * Q -> Q * Q -> Q)
    (lat1 lon1 lat2 lon2 : Q) :
  trace (haversine inverse_km lat1 lon1 lat2 lon2) = [].
Proof.
  unfold haversine, lift.
  destruct (Geopy._normalize_coordinates lat1 lon1) as [a|e]; [|reflexivity].
  destruct (Geopy._normalize_coordinates lat2 lon2) as [b|e]; reflexivity.
Qed.

Lemma load_model_output (fs : filesystem) (p : process) :
  cache_from_load p ->
  exists t r, snd (load_model fs p) = (t, r)
              /\ (t = [] \/ t = [StError files_not_found]).
Proof.
  intros Hp. unfold load_model, cache_from_load in *.
  destruct (cache_resource p) as [[replayed value]|].
  - destruct Hp as [fs0 Hb]. exists replayed, (Ok value). split; [reflexivity|].
    destruct (load_model_body_cases fs0) as [(m & d & H) | [H | H]];
      rewrite H in Hb; inversion Hb; auto.
  - destruct (load_model_body_cases fs) as [(m & d & H) | [H | H]];
      rewrite H; simpl; eauto.
Qed.

(** X14. A run in which the button was not pressed builds no DataFrame
    and calls no encoder, no hash and no classifier, and it has no
    verdict to return, whatever the files, the fields and the
    coordinates are. *)
Theorem run_without_button (inverse_km : Q * Q -> Q * Q -> Q)
    (fs : filesystem) (p : process) (i : inputs) :
  cache_from_load p ->
  button i = false ->
  List.filter is_pipeline_call (trace (snd (script inverse_km fs p i))) = []
  /\ forall sc, outcome (snd (script inverse_km fs p i)) <> Ok (Some sc).
Proof.
  intros Hp Hbutton.
  destruct (load_model_output fs p Hp) as (t & r & Hload & Ht).
  pose proof (haversine_writes_nothing inverse_km (lat i) (long i)
                (merch_lat i) (merch_long i)) as Hh.
  unfold script. destruct (load_model fs p) as [p' loaded].
  simpl in Hload. subst loaded. cbn [snd]. rewrite Hbutton.
  destruct r as [[model encoder]|e].
  - unfold bind at 1.
    destruct (haversine inverse_km (lat i) (long i) (merch_lat i) (merch_long i))
      as [th [distance|e]]; unfold trace in Hh; simpl in Hh; subst th.
    + cbn. split.
      * rewrite List.filter_app. destruct Ht as [Ht | Ht]; subst t; reflexivity.
      * intros sc H. discriminate H.
    + cbn. split.
      * rewrite List.filter_app. destruct Ht as [Ht | Ht]; subst t; reflexivity.
      * intros sc H. discriminate H.
  - cbn. split.
    + destruct Ht as [Ht | Ht]; subst t; reflexivity.
    + intros sc H. discriminate H.
Qed.

(** The sample form with the button left alone. *)
Lemma run_without_button_witness :
  let m := {| booster_predict := fun _ => (1 # 4)%Q |} in
  let i := {| merchant := "shop_A"; category := "grocery"; amt := 100;
              lat := 40.7128; long := -74.0060;
              merch_lat := 40.7589; merch_long := -73.9851;
              hour := 12; day := 15; month := 6;
              gender := "Male"; cc_num := "4111111111111111";
              button := false |} in
  let once := script (fun _ _ => 6.4%Q) (both_stored m ∅)
                (fresh_process (PyHash.Secret 0 0)) i in
  List.filter is_pipeline_call (trace (snd once)) = []
  /\ forall sc, outcome (snd once) <> Ok (Some sc).
Proof.
  intros m i once.
  apply (run_without_button (fun _ _ => 6.4%Q) (both_stored m ∅)
           (fresh_process (PyHash.Secret 0 0)) i).
  - exact I.
  - reflexivity.
Defined.

(** X16. The confidence printed with a verdict is never below 50%: a
    fraud alert carries more than 50, a legitimate alert at least 50,
    whatever number the booster returns. *)
Theorem shown_confidence_at_least_half (m : LGBMClassifier) (x : list Q) :
  exists c,
    (hd_error (trace (display_results (predict m x) (predict_proba m x)))
       = Some (FraudAlert c) /\ (50 < c)%Q)
    \/ (hd_error (trace (display_results (predict m x) (predict_proba m x)))
          = Some (LegitAlert c) /\ (50 <= c)%Q).
Proof.
  unfold predict, predict_proba, argmax, Geopy.Qltb. simpl.
  set (r := booster_predict m x).
  destruct (Qle_bool r (1 - r)) eqn:E; simpl.
  - apply Qle_bool_iff in E.
    exists ((1 - r) * 100)%Q. right. split; [reflexivity | lra].
  - assert (Hlt : ~ (r <= 1 - r)%Q).
    { intros H. apply Qle_bool_iff in H. congruence. }
    exists (r * 100)%Q. left. split; [reflexivity | lra].
Qed.

(** * Claims that hold in an amended form *)

(** ** Categorical encoding *)

(** C1, as stated, fails.  An encoder fitted on a list of the two
    merchants shop_A and shop_B has fixed-width classes of six
    characters: the unseen merchant shop_A_extended is cut to shop_A by
    the cast in [transform] and gets the code 0 instead of -1.  And with
    the global [encoder] equal to [None], the loop body raises
    [TypeError], which its [except] clause does not cover. *)
Lemma unseen_label_not_always_sentinel :
  let le := {| classes_ := ["shop_A"; "shop_B"]%string; classes_dtype := str_ |} in
  let d : gmap string LabelEncoder := {[ "merchant"%string := le ]} in
  let df : frame := [("merchant", Str "shop_A_extended")]%string in
  ~ In "shop_A_extended"%string (classes_ le)
  /\ encode_column (Some d) df "merchant"
     = ([Transform "merchant" (Str "shop_A_extended")],
        Ok [("merchant"%string, Int 0)])
  /\ encode_column None df "merchant" = ([], Raise TypeError).
Proof.
  intros le d df. split; [|split].
  - simpl. intros [H | [H | H]]; [discriminate H | discriminate H | exact H].
  - reflexivity.
  - reflexivity.
Qed.

(** C1, amended.  With the encoder dictionary loaded, for each of the
    columns merchant, category and gender and every input string: when
    the dictionary has no encoder for the column, or the column's
    encoder has object classes and the value is not one of them, or,
    for any encoder, the value once cast to the dtype of the encoder's
    classes is not one of them, the loop body does not raise and
    leaves the sentinel code -1 in the column. *)
Theorem encode_unknown_gives_sentinel (d : gmap string LabelEncoder)
    (input_data : frame) (col v : string) :
  In col categorical_col ->
  getitem input_data col = Ok (Str v) ->
  (d !! col = None
   \/ (exists le, d !! col = Some le /\ classes_dtype le = object_
                  /\ ~ In v (classes_ le))
   \/ (exists le, d !! col = Some le /\ ~ In (astype le v) (classes_ le))) ->
  outcome (encode_column (Some d) input_data col)
    = Ok (setitem input_data col (Int (-1)))
  /\ getitem (setitem input_data col (Int (-1))) col = Ok (Int (-1)).
Proof.
  intros _ Hget Hunknown. split; [|apply getitem_setitem].
  rewrite (encode_column_exact d input_data col v Hget).
  unfold expected_code, outcome. cbn [snd].
  destruct Hunknown as [Habsent | [(le & Hle & Hobj & Hunseen) | (le & Hle & Hunseen)]].
  - rewrite Habsent. reflexivity.
  - rewrite Hle. unfold astype. rewrite Hobj.
    rewrite (index_of_unseen _ _ Hunseen). reflexivity.
  - rewrite Hle, (index_of_unseen _ _ Hunseen). reflexivity.
Qed.

(** The merchant corner_shop under an encoder fitted on a list of two
    other merchants, the gender Other under an encoder fitted on an
    object column, and a dictionary without an entry for the
    category. *)
Lemma encode_unknown_gives_sentinel_witness :
  let le := {| classes_ := ["shop_A"; "shop_B"]%string; classes_dtype := str_ |} in
  let ge := {| classes_ := ["Female"; "Male"]%string; classes_dtype := object_ |} in
  let d : gmap string LabelEncoder :=
    <[ "merchant"%string := le ]> {[ "gender"%string := ge ]} in
  let df : frame := [("merchant", Str "corner_shop"); ("category", Str "grocery");
                     ("gender", Str "Other")]%string in
  (outcome (encode_column (Some d) df "merchant")
     = Ok (setitem df "merchant" (Int (-1)))
   /\ getitem (setitem df "merchant" (Int (-1))) "merchant" = Ok (Int (-1)))
  /\
  (outcome (encode_column (Some d) df "category")
     = Ok (setitem df "category" (Int (-1)))
   /\ getitem (setitem df "category" (Int (-1))) "category" = Ok (Int (-1)))
  /\
  (outcome (encode_column (Some d) df "gender")
     = Ok (setitem df "gender" (Int (-1)))
   /\ getitem (setitem df "gender" (Int (-1))) "gender" = Ok (Int (-1))).
Proof.
  intros le ge d df. split; [|split].
  - apply (encode_unknown_gives_sentinel d df "merchant" "corner_shop").
    + simpl. left. reflexivity.
    + reflexivity.
    + right. right. exists le. split.
      * reflexivity.
      * simpl. intros [H | [H | H]]; [discriminate H | discriminate H | exact H].
  - apply (encode_unknown_gives_sentinel d df "category" "grocery").
    + simpl. right. left. reflexivity.
    + reflexivity.
    + left. reflexivity.
  - apply (encode_unknown_gives_sentinel d df "gender" "Other").
    + simpl. right. right. left. reflexivity.
    + reflexivity.
    + right. left. exists ge. split; [reflexivity|]. split; [reflexivity|].
      simpl. intros [H | [H | H]]; [discriminate H | discriminate H | exact H].
Defined.

(** ** Required fields *)




(** ** Card bucketing across runs and restarts *)

Lemma truthy_true (s : string) : truthy s = true -> s <> ""%string.
Proof.
  destruct s; [intros H; discriminate H | intros _ H; discriminate H].
Qed.

(** Whatever the handler scores, the card column of the feature vector
    holds the bucket of the card number under the secret it was given. *)
Lemma scored_card_bucket (model : option LGBMClassifier)
    (encoder : option (gmap string LabelEncoder)) (k : PyHash.secret)
    (i : inputs) (distance : Q) (sc : scored) :
  outcome (fraud_check model encoder k i distance) = Ok (Some sc) ->
  getitem (feature_vector sc) "cc_num" = Ok (Int (bucket k (cc_num i))).
Proof.
  intros H.
  destruct (truthy (merchant i) && truthy (category i) && truthy (cc_num i)) eqn:G.
  - apply andb_prop in G. destruct G as [G Gcc].
    apply andb_prop in G. destruct G as [Gm Gc].
    apply truthy_true in Gm, Gc, Gcc.
    destruct encoder as [d|].
    + destruct model as [m|].
      * rewrite (fraud_check_loaded m d k i distance Gm Gc Gcc) in H.
        unfold outcome in H. cbn [snd] in H.
        injection H as <-. reflexivity.
      * exfalso. unfold fraud_check in H.
        rewrite (truthy_nonempty _ Gm), (truthy_nonempty _ Gc),
          (truthy_nonempty _ Gcc) in H.
        cbn [andb encode_columns categorical_col DataFrame columns combine] in H.
        set (df0 := [(_, Str (merchant i)); _; _; _; _; _; _; _; _]) in H.
        rewrite (encode_column_exact d df0 "merchant" (merchant i) eq_refl) in H.
        set (df1 := setitem df0 _ _) in H.
        cbv beta iota delta [bind] in H.
        rewrite (encode_column_exact d df1 "category" (category i) eq_refl) in H.
        set (df2 := setitem df1 _ _) in H.
        rewrite (encode_column_exact d df2 "gender" (gender i) eq_refl) in H.
        subst df2 df1 df0.
        cbn -[bucket expected_code] in H. discriminate H.
    + exfalso. unfold fraud_check in H.
      rewrite (truthy_nonempty _ Gm), (truthy_nonempty _ Gc),
        (truthy_nonempty _ Gcc) in H.
      cbn in H. discriminate H.
  - exfalso. unfold fraud_check in H. rewrite G in H. cbn in H. discriminate H.
Qed.

(** A run that returns a verdict got it from the handler, called with
    the hash secret of the process. *)
Lemma script_scored (inverse_km : Q * Q -> Q * Q -> Q) (fs : filesystem)
    (p : process) (i : inputs) (sc : scored) :
  outcome (snd (script inverse_km fs p i)) = Ok (Some sc) ->
  exists model encoder distance,
    outcome (fraud_check model encoder (hash_secret p) i distance) = Ok (Some sc).
Proof.
  intros H. pose proof (load_model_keeps_secret fs p) as Hk.
  unfold script in H. destruct (load_model fs p) as [p' [t [[model encoder]|e]]].
  - simpl in Hk. rewrite Hk in H. cbn [snd] in H. unfold bind at 1 in H.
    destruct (haversine inverse_km (lat i) (long i) (merch_lat i) (merch_long i))
      as [th [distance|e]].
    + exists model, encoder, distance.
      cbn -[fraud_check] in H. destruct (button i).
      * destruct (fraud_check model encoder (hash_secret p) i distance) as [tf rf].
        exact H.
      * discriminate H.
    + cbn in H. discriminate H.
  - cbn in H. discriminate H.
Qed.

(** Two draws of the operating system's random bytes under which the
    token 4111111111111111 falls into the buckets 42 and 27. *)
Lemma randomised_secrets_can_disagree :
  bucket (PyHash.init_secret PyHash.SeedUnset
            [41; 35; 190; 132; 225; 108; 214; 174; 82; 144; 73; 241;
             241; 187; 233; 235; 179; 166; 219; 60; 135; 12; 62; 153])
         "4111111111111111"
  <> bucket (PyHash.init_secret PyHash.SeedUnset
               [45; 32; 134; 131; 44; 194; 254; 63; 209; 140; 181; 29;
                108; 94; 153; 165; 117; 159; 2; 33; 31; 133; 229; 255])
            "4111111111111111".
Proof.
  vm_compute. intros H. discriminate H.
Qed.

(** C2, as stated, fails.  Two starts of the interpreter with hash
    randomisation on ([PYTHONHASHSEED] unset), in which the operating
    system hands out the two byte strings below, put the token
    4111111111111111 into the buckets 42 and 27. *)
Lemma bucket_differs_across_restarts :
  let x := "4111111111111111"%string in
  let k := PyHash.init_secret PyHash.SeedUnset
             [41; 35; 190; 132; 225; 108; 214; 174; 82; 144; 73; 241;
              241; 187; 233; 235; 179; 166; 219; 60; 135; 12; 62; 153] in
  let k' := PyHash.init_secret PyHash.SeedUnset
              [45; 32; 134; 131; 44; 194; 254; 63; 209; 140; 181; 29;
               108; 94; 153; 165; 117; 159; 2; 33; 31; 133; 229; 255] in
  bucket k x = 42 /\ bucket k' x = 27 /\ bucket k x <> bucket k' x.
Proof.
  vm_compute. repeat split; intros H; discriminate H.
Qed.

(** C2, amended.  Within one process the bucket is deterministic across
    repeated invocations: if two runs of the script in the same process,
    with the same card number and any other inputs and files, both
    return a verdict, the card column of both feature vectors holds the
    same value, the bucket of the card number under the process's hash
    secret.  Across restarts the bucket is the same for every token
    when both processes are started with the same integer
    [PYTHONHASHSEED], whatever the operating system's random source
    returns; with hash randomisation on, two restarts can put the same
    token into different buckets. *)
Theorem bucket_fixed_by_secret (inverse_km : Q * Q -> Q * Q -> Q)
    (fs fs' : filesystem) (p : process) (i i' : inputs) (sc sc' : scored)
    (n : Z) (urandom urandom' : list Z) (x : string) :
  cc_num i = cc_num i' ->
  outcome (snd (script inverse_km fs p i)) = Ok (Some sc) ->
  outcome (snd (script inverse_km fs' (fst (script inverse_km fs p i)) i'))
    = Ok (Some sc') ->
  (getitem (feature_vector sc) "cc_num"
     = Ok (Int (bucket (hash_secret p) (cc_num i)))
   /\ getitem (feature_vector sc') "cc_num" = getitem (feature_vector sc) "cc_num")
  /\ bucket (PyHash.init_secret (PyHash.SeedInt n) urandom) x
     = bucket (PyHash.init_secret (PyHash.SeedInt n) urandom') x
  /\ exists (r r' : list Z) (token : string),
       bucket (PyHash.init_secret PyHash.SeedUnset r) token
       <> bucket (PyHash.init_secret PyHash.SeedUnset r') token.
Proof.
  intros Hcc H1 H2. split; [|split].
  - destruct (script_scored _ _ _ _ _ H1) as (model & encoder & distance & Hs).
    destruct (script_scored _ _ _ _ _ H2) as (model' & encoder' & distance' & Hs').
    rewrite script_process, load_model_keeps_secret in Hs'.
    rewrite (scored_card_bucket _ _ _ _ _ _ Hs), (scored_card_bucket _ _ _ _ _ _ Hs').
    rewrite Hcc. split; reflexivity.
  - destruct n; reflexivity.
  - eexists. eexists. eexists. exact randomised_secrets_can_disagree.
Qed.

(** A first submission of the sample form and a second one with
    another merchant and amount but the same card number, in a process
    started with [PYTHONHASHSEED=1] and both files in place. *)
Lemma bucket_fixed_by_secret_witness :
  let km : Q * Q -> Q * Q -> Q := fun _ _ => 6.4%Q in
  let m := {| booster_predict := fun _ => (1 # 4)%Q |} in
  let fs := both_stored m ∅ in
  let p := fresh_process (PyHash.init_secret (PyHash.SeedInt 1) []) in
  let i' := {| merchant := "shop_B"; category := "travel"; amt := 250;
               lat := 40.7128; long := -74.0060;
               merch_lat := 40.7589; merch_long := -73.9851;
               hour := 23; day := 1; month := 12;
               gender := "Female"; cc_num := "4111111111111111";
               button := true |} in
  exists sc sc',
    (outcome (snd (script km fs p sample_form)) = Ok (Some sc)
     /\ outcome (snd (script km no_artifacts (fst (script km fs p sample_form)) i'))
        = Ok (Some sc'))
    /\ (getitem (feature_vector sc) "cc_num" = Ok (Int 42)
        /\ getitem (feature_vector sc') "cc_num" = getitem (feature_vector sc) "cc_num")
    /\ bucket (PyHash.init_secret (PyHash.SeedInt 7) []) "4111111111111111"
       = bucket (PyHash.init_secret (PyHash.SeedInt 7) [1; 2; 3]) "4111111111111111"
    /\ exists (r r' : list Z) (token : string),
         bucket (PyHash.init_secret PyHash.SeedUnset r) token
         <> bucket (PyHash.init_secret PyHash.SeedUnset r') token.
Proof.
  intros km m fs p i'. eexists. eexists. split.
  - split; reflexivity.
  - apply (bucket_fixed_by_secret km fs no_artifacts p sample_form i' _ _
             7 [] [1; 2; 3] "4111111111111111"); reflexivity.
Defined.
